(** * JIRAlert: the webhook dispatch pipeline of [cmd/jiralert/main.go]

    A shallow embedding of the [/alert] and [/healthz] handlers and of
    [errorHandler].  The handlers are written in a small state monad over
    a [World] holding what a request can touch: the response writer, the
    logger's records, the [requestTotal] counter vector and the calls made
    to the notifier.  The collaborators that the handler closes over
    (JSON decoding, the loaded configuration, the notifier) are the
    fields of an [Env]. *)

From Stdlib Require Import Ascii.
From stdpp Require Import base option list strings gmap pretty.

Open Scope Z_scope.
Open Scope string_scope.

(** ** Go values observed by the handlers *)

(** Go's [error] interface; the handlers only ever call [Error()] on it. *)
Module errors.
Record error : Type := New { Error : string }.
End errors.

Module fmt.
(** [fmt.Errorf("receiver missing: %s", name)]: the one format the
    handler uses, a literal prefix followed by a [%s] verb. *)
Definition Errorf (prefix arg : string) : errors.error :=
  errors.New (prefix +:+ arg).
End fmt.

Module strconv.
(** [strconv.FormatInt(i, 10)]. *)
Definition FormatInt (i : Z) : string := pretty i.
End strconv.

(** ** pkg/alertmanager *)

Module alertmanager.
(** [KV] is a [map[string]string]. *)
Abbreviation KV := (gmap string string).

(** Modelled from the spec: the [Alert] type declaration lives in
    [pkg/alertmanager]; the fields are those of the data model (status,
    labels, annotations, starts-at, ends-at).  The status is the decoded
    JSON string. *)
Record Alert : Type := {
  Status : string;
  Labels : KV;
  Annotations : KV;
  StartsAt : Z;
  EndsAt : Z;
}.

(** Modelled from the spec: the [Data] type declaration lives in
    [pkg/alertmanager]; a batch is a receiver name, the group labels and
    an ordered sequence of alerts. *)
Record Data : Type := {
  Receiver : string;
  GroupLabels : KV;
  Alerts : list Alert;
}.

(** The zero value [alertmanager.Data{}]. *)
Definition zero : Data :=
  {| Receiver := EmptyString; GroupLabels := ∅; Alerts := [] |}.

(** The assignment [data.Alerts = alerts]. *)
Definition setAlerts (alerts : list Alert) (data : Data) : Data :=
  {| Receiver := Receiver data; GroupLabels := GroupLabels data; Alerts := alerts |}.

Definition AlertFiring : string := "firing".

(** Modelled from the spec: [Alerts.Firing()] lives in [pkg/alertmanager];
    it produces the alerts whose status is "firing", in order, and drops
    the others. *)
Fixpoint Firing (as_ : list Alert) : list Alert :=
  match as_ with
  | [] => []
  | a :: rest =>
      if String.eqb (Status a) AlertFiring then a :: Firing rest else Firing rest
  end.
End alertmanager.

(** ** pkg/config *)

Module config.
(** Modelled from the spec: the [ReceiverConfig] type declaration lives in
    [pkg/config]; the dispatcher reads only [Name], the remaining
    notification parameters are opaque to it. *)
Record ReceiverConfig : Type := {
  Name : string;
  Params : gmap string string;
}.

(** Modelled from the spec: the [Config] type declaration lives in
    [pkg/config]; [main] reads the path of the template file from it. *)
Record Config : Type := {
  Template : string;
  Receivers : list ReceiverConfig;
}.
End config.

(** ** net/http: the response writer *)

Module http.
Definition StatusOK : Z := 200.
Definition StatusBadRequest : Z := 400.
Definition StatusNotFound : Z := 404.
Definition StatusInternalServerError : Z := 500.
Definition StatusServiceUnavailable : Z := 503.

(** What has been sent on a response so far: the status line, once the
    header is written, and the body bytes.  Header fields are not
    modelled. *)
Record ResponseWriter : Type := {
  wroteHeader : option Z;
  written : string;
}.

Definition fresh : ResponseWriter := {| wroteHeader := None; written := EmptyString |}.

(** [w.WriteHeader(code)]: the first call fixes the status, later calls
    are ignored. *)
Definition WriteHeader (code : Z) (w : ResponseWriter) : ResponseWriter :=
  match wroteHeader w with
  | Some _ => w
  | None => {| wroteHeader := Some code; written := written w |}
  end.

(** [w.Write(p)]: writes the header with status 200 if none was written
    yet, then appends to the body. *)
Definition Write (p : string) (w : ResponseWriter) : ResponseWriter :=
  let w' := WriteHeader StatusOK w in
  {| wroteHeader := wroteHeader w'; written := written w' +:+ p |}.

(** The status the client receives once the handler has returned: 200
    when the handler never wrote a header. *)
Definition statusCode (w : ResponseWriter) : Z :=
  default StatusOK (wroteHeader w).

Definition newline : string := String "010"%char EmptyString.

(** [http.Error(w, error, code)]: writes the header with [code], then
    prints the message with [fmt.Fprintln], that is, followed by a
    newline. *)
Definition Error (error : string) (code : Z) (w : ResponseWriter) : ResponseWriter :=
  Write (error +:+ newline) (WriteHeader code w).
End http.

(** ** go-kit/log: records handed to the logger *)

Module level.
Inductive Level : Type := Debug | Info | Warn | Error.

#[global] Instance Level_eq_dec : EqDecision Level.
Proof. solve_decision. Defined.

(** The options [setupLogger] chooses from for [level.NewFilter]. *)
Inductive Option : Type := AllowError | AllowWarn | AllowInfo | AllowDebug.

(** Whether a record of level [l] gets past a filter built with [o]:
    [AllowError] lets errors through, [AllowWarn] warnings too,
    [AllowInfo] informational records too, [AllowDebug] everything. *)
Definition allows (o : Option) (l : Level) : bool :=
  match o, l with
  | _, Error => true
  | AllowError, _ => false
  | _, Warn => true
  | AllowWarn, _ => false
  | _, Info => true
  | AllowInfo, Debug => false
  | AllowDebug, Debug => true
  end.
End level.

Module log.
(** A value of a key/value pair of a log record. *)
Inductive Value : Type :=
| Str (s : string)
| Int (i : Z)
| Err (e : errors.error)
| Labels (kv : alertmanager.KV).

Record Record_ : Type := {
  lvl : level.Level;
  keyvals : list (string * Value);
}.
End log.

(** ** pkg/notify: calls made to the notifier *)

Module notify.
(** The two entry points of the notifier the handler uses, with the
    arguments of the call. *)
Inductive Call : Type :=
| CallNewReceiver (conf : config.ReceiverConfig)
| CallNotify (conf : config.ReceiverConfig) (data : alertmanager.Data).
End notify.

(** ** The state a request acts on *)

Record World : Type := {
  w : http.ResponseWriter;
  logger : list log.Record_;
  requestTotal : gmap (string * string) nat;
  notifier : list notify.Call;
}.

(** The state monad of the handlers. *)
Definition M (A : Type) : Type := World → A * World.

#[global] Instance M_ret : MRet M := λ A a σ, (a, σ).
#[global] Instance M_bind : MBind M := λ A B f m σ, let '(a, σ') := m σ in f a σ'.

(** Runs a handler and keeps the final state. *)
Definition exec {A} (m : M A) (σ : World) : World := (m σ).2.

Definition modify (f : World → World) : M unit := λ σ, (tt, f σ).

(** [w.WriteHeader(status)] and [fmt.Fprint(w, s)] on the request's writer. *)
Definition WriteHeader (status : Z) : M unit :=
  modify (λ σ, {| w := http.WriteHeader status (w σ); logger := logger σ;
                  requestTotal := requestTotal σ; notifier := notifier σ |}).

Definition Fprint (s : string) : M unit :=
  modify (λ σ, {| w := http.Write s (w σ); logger := logger σ;
                  requestTotal := requestTotal σ; notifier := notifier σ |}).

(** [level.X(logger).Log(keyvals...)]: the record is handed to the logger,
    which appends it; filtering by level happens behind the logger. *)
Definition Log (l : level.Level) (kvs : list (string * log.Value)) : M unit :=
  modify (λ σ, {| w := w σ; logger := logger σ ++ [ {| log.lvl := l; log.keyvals := kvs |} ];
                  requestTotal := requestTotal σ; notifier := notifier σ |}).

(** Modelled from the spec: [requestTotal] is declared outside the two
    source files; it is a counter vector keyed by (receiver name,
    stringified status code).  [value] reads a counter, absent counters
    being zero; [Inc] is [requestTotal.WithLabelValues(receiver, code).Inc()]. *)
Definition value (labels : string * string) (m : gmap (string * string) nat) : nat :=
  default 0%nat (m !! labels).

Definition Inc (receiver code : string) : M unit :=
  modify (λ σ, {| w := w σ; logger := logger σ;
                  requestTotal := <[(receiver, code) := S (value (receiver, code) (requestTotal σ))]> (requestTotal σ);
                  notifier := notifier σ |}).

(** Records a call made to the notifier. *)
Definition call (c : notify.Call) : M unit :=
  modify (λ σ, {| w := w σ; logger := logger σ; requestTotal := requestTotal σ;
                  notifier := notifier σ ++ [c] |}).

(** ** The collaborators a handler closes over *)

(** What [main] sets up before it registers the handlers, and the library
    functions whose results the handlers depend on.
    - [Decode body data] is [json.NewDecoder(req.Body).Decode(&data)]: the
      struct as the decoder leaves it, and the error if any;
    - [ReceiverByName] is [config.ReceiverByName], [None] standing for nil;
    - [NewReceiver] and [Notify] are the notifier of [pkg/notify];
      [Notify] returns the pair (retry, err).  What the notifier does to
      the tracker, and what it logs itself, is outside the model;
    - [quote] is the JSON string literal [encoding/json] writes for a Go
      string, [StatusText] is [http.StatusText]. *)
Record Env : Type := {
  Decode : string → alertmanager.Data → alertmanager.Data * option errors.error;
  ReceiverByName : string → option config.ReceiverConfig;
  Template : Type;
  tmpl : Template;
  Notifier : Type;
  NewReceiver : config.ReceiverConfig → Template → Notifier + errors.error;
  Notify : Notifier → alertmanager.Data → bool * option errors.error;
  quote : string → string;
  StatusText : Z → string;
}.

(** ** cmd/jiralert/main.go *)

Definition unknownReceiver : string := "<unknown>".

(** The anonymous struct [errorHandler] marshals. *)
Record response : Type := {
  Error : bool;
  Status : Z;
  Message : string;
}.

Module json.
Definition dquote : string := String "034"%char EmptyString.

(** An object key: the Go field name between double quotes. *)
Definition key (name : string) : string := dquote +:+ name +:+ dquote.

(** [json.Marshal(response)]: the struct has no field tags, so the keys
    are the Go field names, in declaration order. *)
Definition Marshal (env : Env) (r : response) : string :=
  "{" +:+ key "Error" +:+ ":" +:+ (if Error r then "true" else "false")
  +:+ "," +:+ key "Status" +:+ ":" +:+ strconv.FormatInt (Status r)
  +:+ "," +:+ key "Message" +:+ ":" +:+ quote env (Message r)
  +:+ "}".
End json.

Definition errorHandler (env : Env) (status : Z) (err : errors.error)
    (receiver : string) (data : alertmanager.Data) : M unit :=
  WriteHeader status;;
  let response := {| Error := true; Status := status; Message := errors.Error err |} in
  Fprint (json.Marshal env response);;
  Log level.Error
    [("msg", log.Str "error handling request");
     ("statusCode", log.Int status);
     ("statusText", log.Str (StatusText env status));
     ("err", log.Err err);
     ("receiver", log.Str receiver);
     ("groupLabels", log.Labels (alertmanager.GroupLabels data))];;
  Inc receiver (strconv.FormatInt status).

(** The warning logged when resolved alerts were dropped. *)
Definition sendResolvedMsg : string :=
  "receiver should have " +:+ json.dquote +:+ "send_resolved: false" +:+ json.dquote
  +:+ " set in Alertmanager config".

(** The block guarded by [len(data.Alerts) > 0].  The result tells whether
    the handler has replied through [errorHandler] and returned. *)
Definition dispatch (env : Env) (conf : config.ReceiverConfig)
    (data : alertmanager.Data) : M bool :=
  call (notify.CallNewReceiver conf);;
  match NewReceiver env conf (tmpl env) with
  | inr err =>
      errorHandler env http.StatusInternalServerError err (config.Name conf) data;;
      mret true
  | inl r =>
      call (notify.CallNotify conf data);;
      match Notify env r data with
      | (retry, Some err) =>
          let status :=
            if retry then http.StatusServiceUnavailable
            else http.StatusInternalServerError in
          errorHandler env status err (config.Name conf) data;;
          mret true
      | (_, None) => mret false
      end
  end.

(** The filter step: resolved alerts are dropped, with a warning, and
    the batch keeps the firing ones. *)
Definition filterFiring (conf : config.ReceiverConfig) (data : alertmanager.Data)
    : M alertmanager.Data :=
  (* Filter out resolved alerts, not interested in them. *)
  let alerts := alertmanager.Firing (alertmanager.Alerts data) in
  if (length alerts <? length (alertmanager.Alerts data))%nat
  then
    Log level.Warn [("msg", log.Str sendResolvedMsg);
                    ("receiver", log.Str (config.Name conf))];;
    mret (alertmanager.setAlerts alerts data)
  else mret data.

(** The handler registered for [/alert]. *)
Definition alertHandler (env : Env) (body : string) : M unit :=
  Log level.Debug [("msg", log.Str "handling /alert webhook request")];;
  let '(data, derr) := Decode env body alertmanager.zero in
  match derr with
  | Some err =>
      errorHandler env http.StatusBadRequest err unknownReceiver data
  | None =>
      match ReceiverByName env (alertmanager.Receiver data) with
      | None =>
          errorHandler env http.StatusNotFound
            (fmt.Errorf "receiver missing: " (alertmanager.Receiver data))
            unknownReceiver data
      | Some conf =>
          Log level.Debug [("msg", log.Str "  matched receiver");
                           ("receiver", log.Str (config.Name conf))];;
          data ← filterFiring conf data;
          returned ← (if (0 <? length (alertmanager.Alerts data))%nat
                      then dispatch env conf data
                      else mret false);
          if returned : bool then mret tt
          else Inc (config.Name conf) "200"
      end
  end.


(** The state a request starts in: nothing sent yet, and whatever the
    logger, the counters and the notifier have seen before. *)
Definition start (logs : list log.Record_) (m : gmap (string * string) nat)
    (calls : list notify.Call) : World :=
  {| w := http.fresh; logger := logs; requestTotal := m; notifier := calls |}.

(** ** cmd/jiralert/main.go: [setupLogger] *)

Definition logFormatLogfmt : string := "logfmt".
Definition logFormatJson : string := "json".

(** The two loggers [setupLogger] builds on: [log.NewLogfmtLogger] and
    [log.NewJSONLogger]. *)
Inductive Encoder : Type := LogfmtLogger | JSONLogger.

(** The logger [setupLogger] returns, as far as its two arguments shape
    it: the encoder and the level filter.  The timestamp and caller it
    adds to every record are not modelled. *)
Record Logger : Type := {
  encoder : Encoder;
  allowed : level.Option;
}.

Definition setupLogger (lvl fmt : string) : Logger :=
  let filter_ :=
    if String.eqb lvl "error" then level.AllowError
    else if String.eqb lvl "warn" then level.AllowWarn
    else if String.eqb lvl "debug" then level.AllowDebug
    else level.AllowInfo in
  {| encoder := if String.eqb fmt logFormatJson then JSONLogger else LogfmtLogger;
     allowed := filter_ |}.

(** The records a logger writes out, of those handed to it. *)
Definition emitted (lg : Logger) (records : list log.Record_) : list log.Record_ :=
  List.filter (λ r, level.allows (allowed lg) (log.lvl r)) records.

(** ** cmd/jiralert/main.go: [main] *)

Definition Version : string := "<local build>".

(** The flags after [flag.Parse()]. *)
Record Flags : Type := {
  listenAddress : string;
  configFile : string;
  logLevel : string;
  logFormat : string;
}.

(** The defaults of the four flags. *)
Definition defaultFlags : Flags :=
  {| listenAddress := ":9097"; configFile := "config/jiralert.yml";
     logLevel := "info"; logFormat := logFormatLogfmt |}.

(** What [main] asks of its surroundings: the environment variables, the
    parsed flags, [config.LoadFile], [template.LoadTemplate] and
    [http.ListenAndServe] ([None] standing for a nil error). *)
Record Host : Type := {
  Getenv : string → string;
  flags : Flags;
  LoadFile : string → config.Config + errors.error;
  LoadTemplate : string → option errors.error;
  ListenAndServe : string → option errors.error;
}.

(** What [main] does, in order. *)
Inductive Event : Type :=
| SetBlockProfileRate (rate : Z)
| SetMutexProfileFraction (rate : Z)
| Logged (r : log.Record_)
| CallLoadFile (path : string)
| CallLoadTemplate (path : string)
| Handle (pattern : string)
| CallListenAndServe (addr : string)
| Exit (code : Z).

Definition record (l : level.Level) (kvs : list (string * log.Value)) : Event :=
  Logged {| log.lvl := l; log.keyvals := kvs |}.

(** [main], as the trace of its calls; the trace stops at [os.Exit]. *)
Definition main (h : Host) : list Event :=
  (if String.eqb (Getenv h "DEBUG") EmptyString then []
   else [SetBlockProfileRate 1; SetMutexProfileFraction 1])
  ++ record level.Info [("msg", log.Str "starting JIRAlert"); ("version", log.Str Version)]
  :: CallLoadFile (configFile (flags h))
  :: match LoadFile h (configFile (flags h)) with
     | inr err =>
         [record level.Error [("msg", log.Str "error loading configuration");
                              ("path", log.Str (configFile (flags h)));
                              ("err", log.Err err)];
          Exit 1]
     | inl config =>
         CallLoadTemplate (config.Template config)
         :: match LoadTemplate h (config.Template config) with
            | Some err =>
                [record level.Error [("msg", log.Str "error loading templates");
                                     ("path", log.Str (config.Template config));
                                     ("err", log.Err err)];
                 Exit 1]
            | None =>
                let listenAddress :=
                  if String.eqb (Getenv h "PORT") EmptyString
                  then listenAddress (flags h)
                  else ":" +:+ Getenv h "PORT" in
                [Handle "/alert"; Handle "/"; Handle "/config"; Handle "/healthz";
                 Handle "/metrics";
                 record level.Info [("msg", log.Str "listening");
                                    ("address", log.Str listenAddress)];
                 CallListenAndServe listenAddress]
                ++ match ListenAndServe h listenAddress with
                   | Some _ =>
                       [record level.Error [("msg", log.Str "failed to start HTTP server");
                                            ("address", log.Str listenAddress)];
                        Exit 1]
                   | None => []
                   end
            end
     end.

(** ** The pages: [HomeHandlerFunc] and [ConfigHandlerFunc] *)

Definition docsUrl : string := "https://github.com/espekkaya/jiralert-dockerize#readme".

Record tdata : Type := {
  DocsUrl : string;
  Config : string;
  Err : option errors.error;
}.

(** [pageTemplate(name)]: the template text it formats for [name], which
    stands for the template parsed from it on top of the shared ones. *)
Definition pageTemplate (name : string) : string :=
  "{{define " +:+ json.key "content" +:+ "}}{{template "
  +:+ json.key ("content." +:+ name) +:+ " .}}{{end}}{{template "
  +:+ json.key "page" +:+ " .}}".

Definition homeTemplate : string := pageTemplate "home".
Definition configTemplate : string := pageTemplate "config".

(** [t.Execute(w, data)] of [html/template]: the chunks it writes on [w],
    in order, and the error it stops with, if any. *)
Definition Executor : Type := string → tdata → list string * option errors.error.

(** The writes [Execute] makes on the response. *)
Definition Execute (execute : Executor) (t : string) (data : tdata)
    : M (option errors.error) :=
  λ σ, ((execute t data).2,
        {| w := foldl (λ w p, http.Write p w) (w σ) (execute t data).1;
           logger := logger σ; requestTotal := requestTotal σ;
           notifier := notifier σ |}).

(** HomeHandlerFunc is the HTTP handler for the home page (`/`). *)
Definition HomeHandlerFunc (execute : Executor) : M unit :=
  err ← Execute execute homeTemplate
          {| DocsUrl := docsUrl; Config := EmptyString; Err := None |};
  match err with
  | Some _ => WriteHeader 500
  | None => mret tt
  end.

(** ConfigHandlerFunc is the HTTP handler for the `/config` page; [text]
    is what [config.String()] returns. *)
Definition ConfigHandlerFunc (execute : Executor) (text : string) : M unit :=
  err ← Execute execute configTemplate
          {| DocsUrl := docsUrl; Config := text; Err := None |};
  match err with
  | Some _ => WriteHeader 500
  | None => mret tt
  end.

(** ** Requests one after another *)

(** The state the next request starts in: a new response, the same logger,
    counters and notifier. *)
Definition next (σ : World) : World :=
  start (logger σ) (requestTotal σ) (notifier σ).

(** The webhook served for a sequence of requests, each with the
    collaborators as they answer at that time. *)
Fixpoint serve (reqs : list (Env * string)) (σ : World) : World :=
  match reqs with
  | [] => σ
  | (env, body) :: rest => serve rest (exec (alertHandler env body) (next σ))
  end.

(** ** A test environment *)

Module fixture.
(** Modelled from the spec: [config.ReceiverByName] lives in
    [pkg/config]; lookup is by exact name match against the configured
    receivers. *)
Definition receiverByName (receivers : list config.ReceiverConfig)
    (name : string) : option config.ReceiverConfig :=
  List.find (λ rc, String.eqb (config.Name rc) name) receivers.

(** A decoder given by a table from request bodies to what the decoder
    leaves in the struct; any other body is a syntax error that leaves
    the struct untouched. *)
Fixpoint decodeTable (table : list (string * (alertmanager.Data * option errors.error)))
    (body : string) (data : alertmanager.Data)
    : alertmanager.Data * option errors.error :=
  match table with
  | [] => (data, Some (errors.New "unexpected end of JSON input"))
  | (b, out) :: rest => if String.eqb b body then out else decodeTable rest body data
  end.

(** Quotes a string that needs no escaping. *)
Definition quotePlain (s : string) : string := json.dquote +:+ s +:+ json.dquote.

Definition statusText (code : Z) : string :=
  if (code =? 200)%Z then "OK"
  else if (code =? 400)%Z then "Bad Request"
  else if (code =? 404)%Z then "Not Found"
  else if (code =? 500)%Z then "Internal Server Error"
  else if (code =? 503)%Z then "Service Unavailable"
  else EmptyString.

(** The outcome the test notifier is told to produce. *)
Inductive Outcome : Type :=
| Delivered
| ConstructionFails (err : errors.error)
| DeliveryFails (retry : bool) (err : errors.error).

Definition env (table : list (string * (alertmanager.Data * option errors.error)))
    (receivers : list config.ReceiverConfig) (o : Outcome) : Env :=
  {| Decode := decodeTable table;
     ReceiverByName := receiverByName receivers;
     Template := unit;
     tmpl := tt;
     Notifier := config.ReceiverConfig;
     NewReceiver := λ conf _,
       match o with ConstructionFails err => inr err | _ => inl conf end;
     Notify := λ _ _,
       match o with DeliveryFails retry err => (retry, Some err) | _ => (false, None) end;
     quote := quotePlain;
     StatusText := statusText |}.

Definition teamA : config.ReceiverConfig :=
  {| config.Name := "team-a"; config.Params := ∅ |}.

Definition alert (status : string) : alertmanager.Alert :=
  {| alertmanager.Status := status; alertmanager.Labels := ∅;
     alertmanager.Annotations := ∅; alertmanager.StartsAt := 0;
     alertmanager.EndsAt := 0 |}.

Definition batch (receiver : string) (statuses : list string) : alertmanager.Data :=
  {| alertmanager.Receiver := receiver;
     alertmanager.GroupLabels := {[ "alertname" := "HighLoad" ]};
     alertmanager.Alerts := alert <$> statuses |}.

(** A body whose [receiver] is a number: [encoding/json] stores the
    group labels it has read, skips the mistyped field and reports the
    type error once the value has been read through. *)
Definition mistyped : string :=
  "{" +:+ json.key "groupLabels" +:+ ":{" +:+ json.key "team" +:+ ":" +:+ json.key "a"
  +:+ "}," +:+ json.key "receiver" +:+ ":5}".

Definition mistypedLeft : alertmanager.Data :=
  {| alertmanager.Receiver := EmptyString;
     alertmanager.GroupLabels := {[ "team" := "a" ]};
     alertmanager.Alerts := [] |}.

Definition mistypedErr : errors.error :=
  errors.New "json: cannot unmarshal number into Go struct field Data.receiver of type string".

(** Request bodies, named by what they decode to. *)
Definition table : list (string * (alertmanager.Data * option errors.error)) :=
  [ ("one-firing", (batch "team-a" ["firing"], None));
    ("firing-and-resolved", (batch "team-a" ["firing"; "resolved"], None));
    ("all-resolved", (batch "team-a" ["resolved"; "resolved"], None));
    ("no-alerts", (batch "team-a" [], None));
    ("ghost", (batch "ghost-team" ["firing"], None));
    (mistyped, (mistypedLeft, Some mistypedErr)) ].

Definition world0 : World := start [] ∅ [].
End fixture.

(** ** A test host and a test template *)

Module sample.
(** A host where [PORT] is 8080, both files load and the port is taken. *)
Definition host : Host :=
  {| Getenv := λ name, if String.eqb name "PORT" then "8080" else EmptyString;
     flags := defaultFlags;
     LoadFile := λ _, inl {| config.Template := "config/jiralert.tmpl";
                             config.Receivers := [fixture.teamA] |};
     LoadTemplate := λ _, None;
     ListenAndServe := λ _, Some (errors.New "address already in use") |}.

(** The same host with a configuration file that does not parse. *)
Definition badConfig : Host :=
  {| Getenv := Getenv host; flags := flags host;
     LoadFile := λ _, inr (errors.New "yaml: line 3: mapping values are not allowed");
     LoadTemplate := LoadTemplate host; ListenAndServe := ListenAndServe host |}.

(** A template that writes the page head and then fails. *)
Definition failsLate : Executor :=
  λ _ _, (["<html>"], Some (errors.New "template: no such field")).

(** A template that fails before it writes. *)
Definition failsEarly : Executor :=
  λ _ _, ([], Some (errors.New "template: no such template")).
End sample.

(** * What a request leaves behind *)

(** ** The records the handlers log *)

Definition recHandling : log.Record_ :=
  {| log.lvl := level.Debug;
     log.keyvals := [("msg", log.Str "handling /alert webhook request")] |}.

Definition recMatched (conf : config.ReceiverConfig) : log.Record_ :=
  {| log.lvl := level.Debug;
     log.keyvals := [("msg", log.Str "  matched receiver");
                     ("receiver", log.Str (config.Name conf))] |}.

Definition recResolved (conf : config.ReceiverConfig) : log.Record_ :=
  {| log.lvl := level.Warn;
     log.keyvals := [("msg", log.Str sendResolvedMsg);
                     ("receiver", log.Str (config.Name conf))] |}.

(** The diagnostic record of [errorHandler]. *)
Definition recError (env : Env) (status : Z) (err : errors.error)
    (receiver : string) (labels : alertmanager.KV) : log.Record_ :=
  {| log.lvl := level.Error;
     log.keyvals :=
       [("msg", log.Str "error handling request");
        ("statusCode", log.Int status);
        ("statusText", log.Str (StatusText env status));
        ("err", log.Err err);
        ("receiver", log.Str receiver);
        ("groupLabels", log.Labels labels)] |}.

(** ** The two ways a request ends *)

(** The counter vector after one increment of ([receiver], [code]). *)
Definition bumped (receiver code : string) (m : gmap (string * string) nat)
    : gmap (string * string) nat :=
  <[(receiver, code) := S (value (receiver, code) m)]> m.

(** The envelope [errorHandler] marshals for a status and an error. *)
Definition envelope (status : Z) (err : errors.error) : response :=
  {| Error := true; Status := status; Message := errors.Error err |}.

(** The state a request is left in when it was answered by [errorHandler]
    and [pre] are the records logged before the failure, [made] the calls
    made to the notifier. *)
Definition failed (env : Env) (status : Z) (err : errors.error) (receiver : string)
    (labels : alertmanager.KV) (pre : list log.Record_) (made : list notify.Call)
    (logs : list log.Record_) (m : gmap (string * string) nat)
    (calls : list notify.Call) : World :=
  {| w := {| http.wroteHeader := Some status;
             http.written := json.Marshal env (envelope status err) |};
     logger := (logs ++ pre) ++ [recError env status err receiver labels];
     requestTotal := bumped receiver (strconv.FormatInt status) m;
     notifier := calls ++ made |}.

(** The state a request is left in when it went through: nothing was
    written on the response and the receiver's "200" counter went up. *)
Definition succeeded (receiver : string) (pre : list log.Record_)
    (made : list notify.Call) (logs : list log.Record_)
    (m : gmap (string * string) nat) (calls : list notify.Call) : World :=
  {| w := http.fresh;
     logger := logs ++ pre;
     requestTotal := bumped receiver "200" m;
     notifier := calls ++ made |}.

(** ** The filter step, without the monad *)

(** The batch [filterFiring] hands on, and the records it logs. *)
Definition firingBatch (data : alertmanager.Data) : alertmanager.Data :=
  let alerts := alertmanager.Firing (alertmanager.Alerts data) in
  if (length alerts <? length (alertmanager.Alerts data))%nat
  then alertmanager.setAlerts alerts data else data.

Definition filterLogs (conf : config.ReceiverConfig) (data : alertmanager.Data)
    : list log.Record_ :=
  if (length (alertmanager.Firing (alertmanager.Alerts data))
        <? length (alertmanager.Alerts data))%nat
  then [recResolved conf] else [].

(** The records logged before the notifier is reached. *)
Definition routedLogs (conf : config.ReceiverConfig) (data : alertmanager.Data)
    : list log.Record_ :=
  [recHandling; recMatched conf] ++ filterLogs conf data.

(** ** Labels and statuses *)

(** The receiver name a request is counted under: the one each call site
    of the handler passes on, the matched receiver's once there is one. *)
Definition receiverLabel (env : Env) (body : string) : string :=
  match Decode env body alertmanager.zero with
  | (_, Some _) => unknownReceiver
  | (data, None) =>
      match ReceiverByName env (alertmanager.Receiver data) with
      | None => unknownReceiver
      | Some conf => config.Name conf
      end
  end.

(** The statuses [errorHandler] is called with. *)
Definition failureStatuses : list Z :=
  [http.StatusBadRequest; http.StatusNotFound;
   http.StatusInternalServerError; http.StatusServiceUnavailable].

(** ** The six ways through the handler *)

(** [Run env body logs m calls σ']: the request with [body], started after
    [logs], [m] and [calls], takes one of the six paths of the handler
    and ends in [σ']. *)
Inductive Run (env : Env) (body : string) (logs : list log.Record_)
    (m : gmap (string * string) nat) (calls : list notify.Call) : World → Prop :=
| RunDecodeError data err :
    Decode env body alertmanager.zero = (data, Some err) →
    Run env body logs m calls
      (failed env http.StatusBadRequest err unknownReceiver
              (alertmanager.GroupLabels data) [recHandling] [] logs m calls)
| RunReceiverMissing data :
    Decode env body alertmanager.zero = (data, None) →
    ReceiverByName env (alertmanager.Receiver data) = None →
    Run env body logs m calls
      (failed env http.StatusNotFound
              (fmt.Errorf "receiver missing: " (alertmanager.Receiver data))
              unknownReceiver (alertmanager.GroupLabels data) [recHandling] [] logs m calls)
| RunNoFiring data conf :
    Decode env body alertmanager.zero = (data, None) →
    ReceiverByName env (alertmanager.Receiver data) = Some conf →
    alertmanager.Firing (alertmanager.Alerts data) = [] →
    Run env body logs m calls
      (succeeded (config.Name conf) (routedLogs conf data) [] logs m calls)
| RunConstructionFails data conf err :
    Decode env body alertmanager.zero = (data, None) →
    ReceiverByName env (alertmanager.Receiver data) = Some conf →
    alertmanager.Firing (alertmanager.Alerts data) ≠ [] →
    NewReceiver env conf (tmpl env) = inr err →
    Run env body logs m calls
      (failed env http.StatusInternalServerError err (config.Name conf)
              (alertmanager.GroupLabels data) (routedLogs conf data)
              [notify.CallNewReceiver conf] logs m calls)
| RunDeliveryFails data conf r retry err :
    Decode env body alertmanager.zero = (data, None) →
    ReceiverByName env (alertmanager.Receiver data) = Some conf →
    alertmanager.Firing (alertmanager.Alerts data) ≠ [] →
    NewReceiver env conf (tmpl env) = inl r →
    Notify env r (firingBatch data) = (retry, Some err) →
    Run env body logs m calls
      (failed env
              (if retry then http.StatusServiceUnavailable
               else http.StatusInternalServerError)
              err (config.Name conf) (alertmanager.GroupLabels data)
              (routedLogs conf data)
              [notify.CallNewReceiver conf; notify.CallNotify conf (firingBatch data)]
              logs m calls)
| RunDelivered data conf r retry :
    Decode env body alertmanager.zero = (data, None) →
    ReceiverByName env (alertmanager.Receiver data) = Some conf →
    alertmanager.Firing (alertmanager.Alerts data) ≠ [] →
    NewReceiver env conf (tmpl env) = inl r →
    Notify env r (firingBatch data) = (retry, None) →
    Run env body logs m calls
      (succeeded (config.Name conf) (routedLogs conf data)
                 [notify.CallNewReceiver conf; notify.CallNotify conf (firingBatch data)]
                 logs m calls).

(** ** What a request adds *)

(** The status of the response to a request, the counter it is counted
    under, and the records and notifier calls it adds, read off a run
    that starts from nothing. *)
Definition responseStatus (env : Env) (body : string) : Z :=
  http.statusCode (w (exec (alertHandler env body) (start [] ∅ []))).

Definition counterKey (env : Env) (body : string) : string * string :=
  (receiverLabel env body, strconv.FormatInt (responseStatus env body)).

Definition addedLogs (env : Env) (body : string) : list log.Record_ :=
  logger (exec (alertHandler env body) (start [] ∅ [])).

Definition addedCalls (env : Env) (body : string) : list notify.Call :=
  notifier (exec (alertHandler env body) (start [] ∅ [])).

(** Whether an alert is firing, as [Firing] tests it. *)
Definition isFiring (a : alertmanager.Alert) : Prop :=
  alertmanager.Status a = alertmanager.AlertFiring.

#[global] Instance isFiring_dec a : Decision (isFiring a).
Proof. unfold isFiring. apply _. Defined.

(** The records of a given level. *)
Definition ofLevel (l : level.Level) (records : list log.Record_) : list log.Record_ :=
  List.filter (λ r, bool_decide (log.lvl r = l)) records.

(** ** What [main] and the pages leave behind *)

(** The configuration and the templates both load. *)
Definition loaded (h : Host) : Prop :=
  ∃ config, LoadFile h (configFile (flags h)) = inl config ∧
            LoadTemplate h (config.Template config) = None.

(** The address [main] listens on: the [PORT] variable, when set, takes
    the place of the flag. *)
Definition address (h : Host) : string :=
  if String.eqb (Getenv h "PORT") EmptyString then listenAddress (flags h)
  else ":" +:+ Getenv h "PORT".

(** The records of a trace. *)
Definition logged (t : list Event) : list log.Record_ :=
  omap (λ e, match e with Logged r => Some r | _ => None end) t.

(** The chunks of a template's output, put together. *)
Definition output (chunks : list string) : string :=
  foldr String.append EmptyString chunks.

(** The state a page request is left in when the template wrote [chunks]
    and stopped with [err]: the body is the output, and the status is 500
    only if the template failed before it wrote anything. *)
Definition page (chunks : list string) (err : option errors.error)
    (logs : list log.Record_) (m : gmap (string * string) nat)
    (calls : list notify.Call) : World :=
  {| w := {| http.wroteHeader :=
               match chunks, err with
               | [], None => None
               | [], Some _ => Some 500
               | _ :: _, _ => Some 200
               end;
             http.written := output chunks |};
     logger := logs; requestTotal := m; notifier := calls |}.

(** * Properties *)

(** ** Running the handlers *)

Lemma exec_bind {A B} (m : M A) (f : A → M B) σ :
  exec (m ≫= f) σ = exec (f (m σ).1) (m σ).2.
Proof. unfold exec, mbind, M_bind. by destruct (m σ). Qed.

(** [errorHandler] on a request that has sent nothing yet. *)
Lemma errorHandler_start env status err receiver data logs m calls :
  exec (errorHandler env status err receiver data) (start logs m calls) =
  {| w := {| http.wroteHeader := Some status;
             http.written := json.Marshal env
               {| Error := true; Status := status; Message := errors.Error err |} |};
     logger := logs ++
       [ {| log.lvl := level.Error;
            log.keyvals :=
              [("msg", log.Str "error handling request");
               ("statusCode", log.Int status);
               ("statusText", log.Str (StatusText env status));
               ("err", log.Err err);
               ("receiver", log.Str receiver);
               ("groupLabels", log.Labels (alertmanager.GroupLabels data))] |} ];
     requestTotal := <[(receiver, strconv.FormatInt status) :=
                        S (value (receiver, strconv.FormatInt status) m)]> m;
     notifier := calls |}.
Proof. reflexivity. Qed.

Lemma alertHandler_decode_error env body data err logs m calls :
  Decode env body alertmanager.zero = (data, Some err) →
  exec (alertHandler env body) (start logs m calls) =
  failed env http.StatusBadRequest err unknownReceiver (alertmanager.GroupLabels data)
         [recHandling] [] logs m calls.
Proof.
  intros Hdec. unfold alertHandler. rewrite exec_bind. simpl.
  rewrite Hdec. unfold failed. rewrite app_nil_r. reflexivity.
Qed.

Lemma alertHandler_receiver_missing env body data logs m calls :
  Decode env body alertmanager.zero = (data, None) →
  ReceiverByName env (alertmanager.Receiver data) = None →
  exec (alertHandler env body) (start logs m calls) =
  failed env http.StatusNotFound
         (fmt.Errorf "receiver missing: " (alertmanager.Receiver data))
         unknownReceiver (alertmanager.GroupLabels data) [recHandling] [] logs m calls.
Proof.
  intros Hdec Hrt. unfold alertHandler. rewrite exec_bind. simpl.
  rewrite Hdec, Hrt. unfold failed. rewrite app_nil_r. reflexivity.
Qed.

(** ** The firing filter *)

Lemma Firing_length (l : list alertmanager.Alert) :
  (length (alertmanager.Firing l) ≤ length l)%nat.
Proof.
  induction l as [|a l IH]; simpl; [lia|].
  destruct (String.eqb _ _); simpl; lia.
Qed.

Lemma Firing_all (l : list alertmanager.Alert) :
  Forall (λ a, alertmanager.Status a = alertmanager.AlertFiring) l →
  alertmanager.Firing l = l.
Proof.
  induction 1 as [|a l Ha _ IH]; simpl; [done|].
  rewrite Ha, String.eqb_refl. by f_equal.
Qed.

Lemma Firing_firing (l : list alertmanager.Alert) :
  Forall (λ a, alertmanager.Status a = alertmanager.AlertFiring) (alertmanager.Firing l).
Proof.
  induction l as [|a l IH]; simpl; [constructor|].
  destruct (String.eqb_spec (alertmanager.Status a) alertmanager.AlertFiring); [|done].
  by constructor.
Qed.

Lemma Firing_same_length (l : list alertmanager.Alert) :
  length (alertmanager.Firing l) = length l → alertmanager.Firing l = l.
Proof.
  induction l as [|a l IH]; simpl; [done|].
  destruct (String.eqb _ _); simpl; intros Hlen.
  - f_equal. apply IH. lia.
  - pose proof (Firing_length l). lia.
Qed.

Lemma filterFiring_run conf data σ :
  filterFiring conf data σ =
  (firingBatch data,
   {| w := w σ; logger := logger σ ++ filterLogs conf data;
      requestTotal := requestTotal σ; notifier := notifier σ |}).
Proof.
  unfold filterFiring, firingBatch, filterLogs.
  destruct (_ <? _)%nat; simpl.
  - reflexivity.
  - rewrite app_nil_r. by destruct σ.
Qed.

Lemma firingBatch_Alerts data :
  alertmanager.Alerts (firingBatch data) = alertmanager.Firing (alertmanager.Alerts data).
Proof.
  unfold firingBatch.
  destruct (Nat.ltb_spec (length (alertmanager.Firing (alertmanager.Alerts data)))
                         (length (alertmanager.Alerts data))) as [Hlt|Hge]; simpl; [done|].
  symmetry. apply Firing_same_length.
  pose proof (Firing_length (alertmanager.Alerts data)). lia.
Qed.

Lemma firingBatch_GroupLabels data :
  alertmanager.GroupLabels (firingBatch data) = alertmanager.GroupLabels data.
Proof. unfold firingBatch. by destruct (_ <? _)%nat. Qed.

(** ** A matched receiver *)

(** The handler from the point where the receiver is matched. *)
Lemma alertHandler_routed env body data conf logs m calls :
  Decode env body alertmanager.zero = (data, None) →
  ReceiverByName env (alertmanager.Receiver data) = Some conf →
  exec (alertHandler env body) (start logs m calls) =
  exec (returned ← (if (0 <? length (alertmanager.Alerts (firingBatch data)))%nat
                    then dispatch env conf (firingBatch data) else mret false);
        if returned : bool then mret tt else Inc (config.Name conf) "200")
       {| w := http.fresh; logger := logs ++ routedLogs conf data;
          requestTotal := m; notifier := calls |}.
Proof.
  intros Hdec Hrt. unfold alertHandler. rewrite exec_bind. simpl.
  rewrite Hdec, Hrt. rewrite exec_bind. simpl.
  rewrite exec_bind, filterFiring_run. simpl.
  unfold routedLogs. rewrite <- !app_assoc. reflexivity.
Qed.

Lemma alertHandler_no_firing env body data conf logs m calls :
  Decode env body alertmanager.zero = (data, None) →
  ReceiverByName env (alertmanager.Receiver data) = Some conf →
  alertmanager.Firing (alertmanager.Alerts data) = [] →
  exec (alertHandler env body) (start logs m calls) =
  succeeded (config.Name conf) (routedLogs conf data) [] logs m calls.
Proof.
  intros Hdec Hrt Hnone. rewrite (alertHandler_routed _ _ _ _ _ _ _ Hdec Hrt).
  rewrite firingBatch_Alerts, Hnone. simpl.
  unfold succeeded. rewrite app_nil_r. reflexivity.
Qed.

Lemma nonempty_length {A} (l : list A) : l ≠ [] → (0 <? length l)%nat = true.
Proof. destruct l; [done|]. reflexivity. Qed.

Lemma alertHandler_construction_fails env body data conf err logs m calls :
  Decode env body alertmanager.zero = (data, None) →
  ReceiverByName env (alertmanager.Receiver data) = Some conf →
  alertmanager.Firing (alertmanager.Alerts data) ≠ [] →
  NewReceiver env conf (tmpl env) = inr err →
  exec (alertHandler env body) (start logs m calls) =
  failed env http.StatusInternalServerError err (config.Name conf)
         (alertmanager.GroupLabels data) (routedLogs conf data)
         [notify.CallNewReceiver conf] logs m calls.
Proof.
  intros Hdec Hrt Hsome Hnew. rewrite (alertHandler_routed _ _ _ _ _ _ _ Hdec Hrt).
  rewrite firingBatch_Alerts, (nonempty_length _ Hsome).
  unfold dispatch. rewrite Hnew. rewrite <- firingBatch_GroupLabels. reflexivity.
Qed.

Lemma alertHandler_delivery_fails env body data conf r retry err logs m calls :
  Decode env body alertmanager.zero = (data, None) →
  ReceiverByName env (alertmanager.Receiver data) = Some conf →
  alertmanager.Firing (alertmanager.Alerts data) ≠ [] →
  NewReceiver env conf (tmpl env) = inl r →
  Notify env r (firingBatch data) = (retry, Some err) →
  exec (alertHandler env body) (start logs m calls) =
  failed env
         (if retry then http.StatusServiceUnavailable else http.StatusInternalServerError)
         err (config.Name conf) (alertmanager.GroupLabels data) (routedLogs conf data)
         [notify.CallNewReceiver conf; notify.CallNotify conf (firingBatch data)]
         logs m calls.
Proof.
  intros Hdec Hrt Hsome Hnew Hnot. rewrite (alertHandler_routed _ _ _ _ _ _ _ Hdec Hrt).
  rewrite firingBatch_Alerts, (nonempty_length _ Hsome).
  unfold dispatch. rewrite Hnew. rewrite <- firingBatch_GroupLabels.
  rewrite !exec_bind. simpl. rewrite Hnot. unfold failed. simpl.
  rewrite <- !app_assoc. reflexivity.
Qed.

Lemma alertHandler_delivered env body data conf r retry logs m calls :
  Decode env body alertmanager.zero = (data, None) →
  ReceiverByName env (alertmanager.Receiver data) = Some conf →
  alertmanager.Firing (alertmanager.Alerts data) ≠ [] →
  NewReceiver env conf (tmpl env) = inl r →
  Notify env r (firingBatch data) = (retry, None) →
  exec (alertHandler env body) (start logs m calls) =
  succeeded (config.Name conf) (routedLogs conf data)
            [notify.CallNewReceiver conf; notify.CallNotify conf (firingBatch data)]
            logs m calls.
Proof.
  intros Hdec Hrt Hsome Hnew Hnot. rewrite (alertHandler_routed _ _ _ _ _ _ _ Hdec Hrt).
  rewrite firingBatch_Alerts, (nonempty_length _ Hsome).
  unfold dispatch. rewrite Hnew.
  rewrite !exec_bind. simpl. rewrite Hnot. unfold succeeded. simpl.
  rewrite <- !app_assoc. reflexivity.
Qed.

(** ** How a request ends *)

Lemma failureStatuses_spec status :
  status ∈ failureStatuses ↔ status = 400 ∨ status = 404 ∨ status = 500 ∨ status = 503.
Proof.
  unfold failureStatuses. rewrite !elem_of_cons, elem_of_nil. tauto.
Qed.

(** Every request ends in one of the two shapes, counted under
    [receiverLabel]. *)
Lemma alertHandler_ends env body logs m calls :
  ∃ pre made,
    exec (alertHandler env body) (start logs m calls) =
      succeeded (receiverLabel env body) pre made logs m calls
    ∨ ∃ status err labels,
        status ∈ failureStatuses ∧
        exec (alertHandler env body) (start logs m calls) =
          failed env status err (receiverLabel env body) labels pre made logs m calls.
Proof.
  unfold receiverLabel.
  destruct (Decode env body alertmanager.zero) as [data [err|]] eqn:Hdec.
  { eexists _, _. right. eexists _, _, _. split; [|by apply alertHandler_decode_error].
    apply failureStatuses_spec; auto. }
  destruct (ReceiverByName env (alertmanager.Receiver data)) as [conf|] eqn:Hrt.
  2:{ eexists _, _. right. eexists _, _, _.
      split; [|by apply alertHandler_receiver_missing].
      apply failureStatuses_spec; auto. }
  destruct (decide (alertmanager.Firing (alertmanager.Alerts data) = [])) as [Hnone|Hsome].
  { eexists _, _. left. by apply alertHandler_no_firing. }
  destruct (NewReceiver env conf (tmpl env)) as [r|err] eqn:Hnew.
  2:{ eexists _, _. right. eexists _, _, _.
      split; [|by apply alertHandler_construction_fails].
      apply failureStatuses_spec; auto. }
  destruct (Notify env r (firingBatch data)) as [retry [err|]] eqn:Hnot.
  - eexists _, _. right. eexists _, _, _.
    split; [|by eapply alertHandler_delivery_fails].
    destruct retry; apply failureStatuses_spec; auto.
  - eexists _, _. left. by eapply alertHandler_delivered.
Qed.

Lemma failureStatuses_not_200 status : status ∈ failureStatuses → status ≠ 200.
Proof.
  rewrite failureStatuses_spec. intros [-> | [-> | [-> | ->]]]; discriminate.
Qed.

Lemma value_bumped receiver code m k :
  value k (bumped receiver code m) =
  if decide (k = (receiver, code)) then S (value k m) else value k m.
Proof.
  unfold value, bumped. case_decide as Hk.
  - subst k. by rewrite lookup_insert_eq.
  - by rewrite lookup_insert_ne.
Qed.


(** * The claims *)

(** C1.  Failures of the notifier on POST /alert fix the response status.
    For a decoded batch with a matched receiver and at least one firing
    alert: when [notify.NewReceiver] fails, the request is answered
    through [errorHandler] with status 500; when [Notify] fails with
    (retry, err), it is answered through the same [errorHandler] with
    status 503 if [retry] holds and 500 otherwise.  Either value of the
    retry flag is covered, and the status is a function of it. *)
Theorem gateway_failure_status env body data conf logs m calls :
  Decode env body alertmanager.zero = (data, None) →
  ReceiverByName env (alertmanager.Receiver data) = Some conf →
  alertmanager.Firing (alertmanager.Alerts data) ≠ [] →
  let σ' := exec (alertHandler env body) (start logs m calls) in
  (∀ err, NewReceiver env conf (tmpl env) = inr err →
     http.statusCode (w σ') = 500 ∧
     σ' = failed env 500 err (config.Name conf) (alertmanager.GroupLabels data)
                 (routedLogs conf data) [notify.CallNewReceiver conf] logs m calls)
  ∧
  (∀ r retry err,
     NewReceiver env conf (tmpl env) = inl r →
     Notify env r (firingBatch data) = (retry, Some err) →
     http.statusCode (w σ') = (if retry then 503 else 500) ∧
     σ' = failed env (if retry then 503 else 500) err (config.Name conf)
                 (alertmanager.GroupLabels data) (routedLogs conf data)
                 [notify.CallNewReceiver conf; notify.CallNotify conf (firingBatch data)]
                 logs m calls).
Proof.
  intros Hdec Hrt Hsome σ'. subst σ'. split.
  - intros err Hnew.
    rewrite (alertHandler_construction_fails _ _ _ _ _ _ _ _ Hdec Hrt Hsome Hnew).
    by split.
  - intros r retry err Hnew Hnot.
    rewrite (alertHandler_delivery_fails _ _ _ _ _ _ _ _ _ _ Hdec Hrt Hsome Hnew Hnot).
    split; [|done]. by destruct retry.
Qed.

(** C1 on two requests for "team-a" with one firing alert: the notifier
    cannot be built for the first, and delivery fails with the retry flag
    set for the second. *)
Lemma gateway_failure_status_witness :
  http.statusCode
    (w (exec (alertHandler
                (fixture.env fixture.table [fixture.teamA]
                   (fixture.ConstructionFails (errors.New "bad project")))
                "one-firing") fixture.world0)) = 500
  ∧
  http.statusCode
    (w (exec (alertHandler
                (fixture.env fixture.table [fixture.teamA]
                   (fixture.DeliveryFails true (errors.New "jira is down")))
                "one-firing") fixture.world0)) = 503.
Proof.
  split.
  - apply (proj1 (gateway_failure_status
                    (fixture.env fixture.table [fixture.teamA]
                       (fixture.ConstructionFails (errors.New "bad project")))
                    "one-firing" (fixture.batch "team-a" ["firing"]) fixture.teamA
                    [] ∅ [] eq_refl eq_refl ltac:(discriminate))
                 (errors.New "bad project") eq_refl).
  - apply (proj2 (gateway_failure_status
                    (fixture.env fixture.table [fixture.teamA]
                       (fixture.DeliveryFails true (errors.New "jira is down")))
                    "one-firing" (fixture.batch "team-a" ["firing"]) fixture.teamA
                    [] ∅ [] eq_refl eq_refl ltac:(discriminate))
                 fixture.teamA true (errors.New "jira is down") eq_refl eq_refl).
Defined.

(** C2.  A decoded batch with no firing alert (none at all, or resolved
    ones only) never reaches the notifier: neither [notify.NewReceiver]
    nor [Notify] is called.  When the batch reaches the filter, that is,
    when its receiver is matched, the request ends as a success: nothing
    is written on the response, so the status is 200, and the receiver's
    "200" counter goes up. *)
Theorem no_firing_alerts_is_noop env body data logs m calls :
  Decode env body alertmanager.zero = (data, None) →
  alertmanager.Firing (alertmanager.Alerts data) = [] →
  let σ' := exec (alertHandler env body) (start logs m calls) in
  notifier σ' = calls ∧
  ∀ conf,
    ReceiverByName env (alertmanager.Receiver data) = Some conf →
    http.statusCode (w σ') = 200 ∧
    w σ' = http.fresh ∧
    requestTotal σ' = bumped (config.Name conf) "200" m.
Proof.
  intros Hdec Hnone σ'. subst σ'.
  destruct (ReceiverByName env (alertmanager.Receiver data)) as [conf|] eqn:Hrt.
  - rewrite (alertHandler_no_firing _ _ _ _ _ _ _ Hdec Hrt Hnone). simpl.
    rewrite app_nil_r. split; [done|]. by intros ? [= <-].
  - rewrite (alertHandler_receiver_missing _ _ _ _ _ _ Hdec Hrt). simpl.
    rewrite app_nil_r. split; [done|]. by intros ? [=].
Qed.

(** C2 on a batch for "team-a" whose two alerts are resolved. *)
Lemma no_firing_alerts_is_noop_witness :
  let σ' := exec (alertHandler
                    (fixture.env fixture.table [fixture.teamA] fixture.Delivered)
                    "all-resolved") fixture.world0 in
  notifier σ' = [] ∧
  http.statusCode (w σ') = 200 ∧
  w σ' = http.fresh ∧
  requestTotal σ' = bumped "team-a" "200" ∅.
Proof.
  pose proof (no_firing_alerts_is_noop
                (fixture.env fixture.table [fixture.teamA] fixture.Delivered)
                "all-resolved" (fixture.batch "team-a" ["resolved"; "resolved"])
                [] ∅ [] eq_refl eq_refl) as [Hcalls Hok].
  split; [exact Hcalls|]. exact (Hok fixture.teamA eq_refl).
Defined.

(** C3.  A payload that decodes but names a receiver the configuration
    does not know is answered with status 404 and the envelope whose
    message is "receiver missing: " followed by the name; the diagnostic
    record and the counter carry the receiver label "<unknown>", and the
    notifier is not called. *)
Theorem receiver_missing_404 env body data logs m calls :
  Decode env body alertmanager.zero = (data, None) →
  ReceiverByName env (alertmanager.Receiver data) = None →
  let σ' := exec (alertHandler env body) (start logs m calls) in
  let err := errors.New ("receiver missing: " +:+ alertmanager.Receiver data) in
  http.statusCode (w σ') = 404 ∧
  http.written (w σ') =
    json.Marshal env {| Error := true; Status := 404; Message := errors.Error err |} ∧
  logger σ' =
    (logs ++ [recHandling;
              recError env 404 err "<unknown>" (alertmanager.GroupLabels data)])%list ∧
  requestTotal σ' = bumped "<unknown>" "404" m ∧
  notifier σ' = calls.
Proof.
  intros Hdec Hrt σ' err. subst σ' err.
  rewrite (alertHandler_receiver_missing _ _ _ _ _ _ Hdec Hrt). simpl.
  rewrite app_nil_r, <- app_assoc. done.
Qed.

(** C3 on a batch for "ghost-team", which is not configured. *)
Lemma receiver_missing_404_witness :
  let env := fixture.env fixture.table [fixture.teamA] fixture.Delivered in
  let σ' := exec (alertHandler env "ghost") fixture.world0 in
  http.statusCode (w σ') = 404 ∧
  http.written (w σ') =
    json.Marshal env
      {| Error := true; Status := 404; Message := "receiver missing: ghost-team" |} ∧
  requestTotal σ' = bumped "<unknown>" "404" ∅ ∧
  notifier σ' = [].
Proof.
  pose proof (receiver_missing_404
                (fixture.env fixture.table [fixture.teamA] fixture.Delivered)
                "ghost" (fixture.batch "ghost-team" ["firing"]) [] ∅ []
                eq_refl eq_refl) as (H1 & H2 & _ & H3 & H4).
  repeat split; assumption.
Defined.

(** C4.  A body that fails to decode is answered with status 400 and the
    notifier is not called.  The handler stops there: it logs only its
    opening record and the diagnostic record, and what it does is the same
    under any router and notifier. *)
Theorem malformed_body_400 env body data err logs m calls :
  Decode env body alertmanager.zero = (data, Some err) →
  let σ' := exec (alertHandler env body) (start logs m calls) in
  http.statusCode (w σ') = 400 ∧
  notifier σ' = calls ∧
  logger σ' =
    (logs ++ [recHandling;
              recError env 400 err unknownReceiver (alertmanager.GroupLabels data)])%list ∧
  ∀ env',
    Decode env' = Decode env → quote env' = quote env → StatusText env' = StatusText env →
    exec (alertHandler env' body) (start logs m calls) = σ'.
Proof.
  intros Hdec σ'. subst σ'.
  rewrite (alertHandler_decode_error _ _ _ _ _ _ _ Hdec). simpl.
  rewrite app_nil_r, <- app_assoc. repeat split; try done.
  intros env' HD Hq Ht.
  assert (Hdec' : Decode env' body alertmanager.zero = (data, Some err))
    by (by rewrite HD).
  rewrite (alertHandler_decode_error _ _ _ _ _ _ _ Hdec').
  unfold failed, recError, json.Marshal. by rewrite Hq, Ht.
Qed.

(** C4 on a body that is not JSON. *)
Lemma malformed_body_400_witness :
  let σ' := exec (alertHandler
                    (fixture.env fixture.table [fixture.teamA] fixture.Delivered)
                    "not json") fixture.world0 in
  http.statusCode (w σ') = 400 ∧ notifier σ' = [].
Proof.
  pose proof (malformed_body_400
                (fixture.env fixture.table [fixture.teamA] fixture.Delivered)
                "not json" alertmanager.zero
                (errors.New "unexpected end of JSON input") [] ∅ []
                eq_refl) as (H1 & H2 & _).
  split; assumption.
Defined.




(** C6 as stated fails on a body whose [receiver] is a number: decoding
    fails, and the diagnostic record carries the group labels the decoder
    had stored, so the request does not end as it would for the zero
    batch. *)
Lemma decode_failure_shows_group_labels :
  let env := fixture.env fixture.table [fixture.teamA] fixture.Delivered in
  let σ' := exec (alertHandler env fixture.mistyped) fixture.world0 in
  Decode env fixture.mistyped alertmanager.zero =
    (fixture.mistypedLeft, Some fixture.mistypedErr) ∧
  last (logger σ') =
    Some (recError env 400 fixture.mistypedErr "<unknown>" {[ "team" := "a" ]}) ∧
  σ' ≠ failed env 400 fixture.mistypedErr "<unknown>"
              (alertmanager.GroupLabels alertmanager.zero) [recHandling] [] [] ∅ [].
Proof.
  repeat split. intros H.
  apply (f_equal (λ σ, last (logger σ))) in H. vm_compute in H. discriminate H.
Defined.

(** C6 (amended).  When decoding fails, the request is answered by
    [errorHandler] with status 400 under the label "<unknown>", and no
    later stage runs.  Of the batch the decoder left behind, the group
    labels are logged in the diagnostic record and nothing else is looked
    at; the outcome is that of the zero batch exactly when the decoder
    left no group labels. *)
Theorem decode_failure_outcome env body data err logs m calls :
  Decode env body alertmanager.zero = (data, Some err) →
  let σ' := exec (alertHandler env body) (start logs m calls) in
  σ' = failed env 400 err "<unknown>" (alertmanager.GroupLabels data)
              [recHandling] [] logs m calls
  ∧ (σ' = failed env 400 err "<unknown>" (alertmanager.GroupLabels alertmanager.zero)
                 [recHandling] [] logs m calls
     ↔ alertmanager.GroupLabels data = ∅).
Proof.
  intros Hdec σ'. subst σ'.
  rewrite (alertHandler_decode_error _ _ _ _ _ _ _ Hdec).
  split; [done|]. split.
  - intros Heq. apply (f_equal logger) in Heq. simpl in Heq.
    apply app_inv_head in Heq. by injection Heq.
  - by intros ->.
Qed.

(** C6 (amended) on the same body. *)
Lemma decode_failure_outcome_witness :
  let env := fixture.env fixture.table [fixture.teamA] fixture.Delivered in
  exec (alertHandler env fixture.mistyped) fixture.world0 =
  failed env 400 fixture.mistypedErr "<unknown>" {[ "team" := "a" ]}
         [recHandling] [] [] ∅ [].
Proof.
  apply (proj1 (decode_failure_outcome
                  (fixture.env fixture.table [fixture.teamA] fixture.Delivered)
                  fixture.mistyped fixture.mistypedLeft fixture.mistypedErr [] ∅ []
                  eq_refl)).
Defined.

(** C7.  Every request to POST /alert increments exactly one counter, by
    one: the one labelled with the request's receiver label (the matched
    receiver's name, or "<unknown>" when decoding or routing failed) and
    the decimal text of the response status, which is "200" on success. *)
Theorem request_counted_once env body logs m calls :
  let σ' := exec (alertHandler env body) (start logs m calls) in
  let code := strconv.FormatInt (http.statusCode (w σ')) in
  requestTotal σ' = bumped (receiverLabel env body) code m ∧
  (∀ k, value k (requestTotal σ') =
        if decide (k = (receiverLabel env body, code)) then S (value k m) else value k m) ∧
  strconv.FormatInt 200 = "200".
Proof.
  intros σ' code.
  assert (Hb : requestTotal σ' = bumped (receiverLabel env body) code m).
  { subst code σ'.
    destruct (alertHandler_ends env body logs m calls)
      as (pre & made & [-> | (status & err & labels & Hin & ->)]); done. }
  split; [done|]. split.
  - intros k. rewrite Hb. apply value_bumped.
  - reflexivity.
Qed.

(** C8.  Filtering a batch whose alerts are all firing changes nothing:
    [Firing] returns the same sequence, and the handler's filter step
    hands on the same batch and logs no warning.  Filtering twice is
    filtering once. *)
Theorem filter_idempotent conf data σ :
  Forall (λ a, alertmanager.Status a = "firing") (alertmanager.Alerts data) →
  alertmanager.Firing (alertmanager.Alerts data) = alertmanager.Alerts data ∧
  filterFiring conf data σ = (data, σ) ∧
  ∀ l, alertmanager.Firing (alertmanager.Firing l) = alertmanager.Firing l.
Proof.
  intros Hall. pose proof (Firing_all _ Hall) as Heq. split; [done|]. split.
  - unfold filterFiring. rewrite Heq, Nat.ltb_irrefl. reflexivity.
  - intros l. apply Firing_all, Firing_firing.
Qed.

(** C8 on a batch of two firing alerts. *)
Lemma filter_idempotent_witness :
  alertmanager.Firing (alertmanager.Alerts (fixture.batch "team-a" ["firing"; "firing"])) =
  alertmanager.Alerts (fixture.batch "team-a" ["firing"; "firing"]).
Proof.
  apply (proj1 (filter_idempotent fixture.teamA
                  (fixture.batch "team-a" ["firing"; "firing"]) fixture.world0
                  ltac:(repeat constructor))).
Defined.



(** C10.  The envelope [errorHandler] writes has [Error] true, [Status]
    the status it set with [WriteHeader] and [Message] the text of the
    error; on POST /alert a body is written only when the status is not
    200, and it is then such an envelope for the response status. *)
Theorem envelope_consistent env :
  (∀ status err receiver data logs m calls,
     let σ' := exec (errorHandler env status err receiver data) (start logs m calls) in
     http.wroteHeader (w σ') = Some status ∧
     http.written (w σ') =
       json.Marshal env {| Error := true; Status := status; Message := errors.Error err |})
  ∧
  (∀ body logs m calls,
     let σ' := exec (alertHandler env body) (start logs m calls) in
     (http.written (w σ') = EmptyString ∧ http.statusCode (w σ') = 200)
     ∨ (http.statusCode (w σ') ≠ 200 ∧
        ∃ err, http.written (w σ') =
                 json.Marshal env
                   {| Error := true; Status := http.statusCode (w σ');
                      Message := errors.Error err |})).
Proof.
  split.
  - intros. subst σ'. by rewrite errorHandler_start.
  - intros body logs m calls σ'. subst σ'.
    destruct (alertHandler_ends env body logs m calls)
      as (pre & made & [-> | (status & err & labels & Hin & ->)]).
    + by left.
    + right. split; [|by exists err]. simpl.
      by apply failureStatuses_not_200.
Qed.

(** * The scenarios of the specification *)

(** Scenario 2: one firing and one resolved alert.  A warning is logged,
    the notifier gets the firing alert only, and the response is 200. *)
Example scenario_firing_and_resolved :
  let σ' := exec (alertHandler
                    (fixture.env fixture.table [fixture.teamA] fixture.Delivered)
                    "firing-and-resolved") fixture.world0 in
  logger σ' = [recHandling; recMatched fixture.teamA; recResolved fixture.teamA] ∧
  notifier σ' = [notify.CallNewReceiver fixture.teamA;
                 notify.CallNotify fixture.teamA (fixture.batch "team-a" ["firing"])] ∧
  http.statusCode (w σ') = 200 ∧
  value ("team-a", "200") (requestTotal σ') = 1%nat.
Proof. repeat split. Qed.

(** Scenario 4: a transient delivery failure gives 503 and is counted
    under the receiver. *)
Example scenario_transient_failure :
  let env := fixture.env fixture.table [fixture.teamA]
               (fixture.DeliveryFails true (errors.New "jira is down")) in
  let σ' := exec (alertHandler env "one-firing") fixture.world0 in
  http.statusCode (w σ') = 503 ∧
  http.written (w σ') =
    json.Marshal env {| Error := true; Status := 503; Message := "jira is down" |} ∧
  value ("team-a", "503") (requestTotal σ') = 1%nat ∧
  value ("team-a", "200") (requestTotal σ') = 0%nat.
Proof. repeat split. Qed.

(** Scenario 6: all alerts resolved.  One warning, no call, 200. *)
Example scenario_all_resolved :
  let σ' := exec (alertHandler
                    (fixture.env fixture.table [fixture.teamA] fixture.Delivered)
                    "all-resolved") fixture.world0 in
  logger σ' = [recHandling; recMatched fixture.teamA; recResolved fixture.teamA] ∧
  notifier σ' = [] ∧
  http.statusCode (w σ') = 200.
Proof. repeat split. Qed.

(** Two requests in a row for the same receiver raise its "200" counter
    by two. *)
Example scenario_two_requests :
  let env := fixture.env fixture.table [fixture.teamA] fixture.Delivered in
  let σ1 := exec (alertHandler env "one-firing") fixture.world0 in
  let σ2 := exec (alertHandler env "no-alerts")
                 (start (logger σ1) (requestTotal σ1) (notifier σ1)) in
  value ("team-a", "200") (requestTotal σ2) = 2%nat.
Proof. reflexivity. Qed.

(** * Further properties of the handlers *)

(** ** The paths of the handler *)

Lemma alertHandler_Run env body logs m calls :
  Run env body logs m calls (exec (alertHandler env body) (start logs m calls)).
Proof.
  destruct (Decode env body alertmanager.zero) as [data [err|]] eqn:Hdec.
  { rewrite (alertHandler_decode_error _ _ _ _ _ _ _ Hdec). by constructor. }
  destruct (ReceiverByName env (alertmanager.Receiver data)) as [conf|] eqn:Hrt.
  2:{ rewrite (alertHandler_receiver_missing _ _ _ _ _ _ Hdec Hrt). by constructor. }
  destruct (decide (alertmanager.Firing (alertmanager.Alerts data) = [])) as [Hnone|Hsome].
  { rewrite (alertHandler_no_firing _ _ _ _ _ _ _ Hdec Hrt Hnone). by constructor. }
  destruct (NewReceiver env conf (tmpl env)) as [r|err] eqn:Hnew.
  2:{ rewrite (alertHandler_construction_fails _ _ _ _ _ _ _ _ Hdec Hrt Hsome Hnew).
      by constructor. }
  destruct (Notify env r (firingBatch data)) as [retry [err|]] eqn:Hnot.
  - rewrite (alertHandler_delivery_fails _ _ _ _ _ _ _ _ _ _ Hdec Hrt Hsome Hnew Hnot).
    by econstructor.
  - rewrite (alertHandler_delivered _ _ _ _ _ _ _ _ _ Hdec Hrt Hsome Hnew Hnot).
    by econstructor.
Qed.

Ltac frame_done :=
  unfold failed, succeeded; simpl; rewrite ?app_nil_r, <- ?app_assoc; reflexivity.

(** The handler reads nothing of the state it starts in: a request after
    [logs], [m] and [calls] adds what it adds after nothing. *)
Lemma alertHandler_frame env body logs m calls :
  exec (alertHandler env body) (start logs m calls) =
  {| w := w (exec (alertHandler env body) (start [] ∅ []));
     logger := logs ++ addedLogs env body;
     requestTotal := bumped (counterKey env body).1 (counterKey env body).2 m;
     notifier := calls ++ addedCalls env body |}.
Proof.
  unfold counterKey, addedLogs, addedCalls, responseStatus, receiverLabel.
  destruct (Decode env body alertmanager.zero) as [data [err|]] eqn:Hdec.
  { rewrite !(alertHandler_decode_error _ _ _ _ _ _ _ Hdec). frame_done. }
  destruct (ReceiverByName env (alertmanager.Receiver data)) as [conf|] eqn:Hrt.
  2:{ rewrite !(alertHandler_receiver_missing _ _ _ _ _ _ Hdec Hrt). frame_done. }
  destruct (decide (alertmanager.Firing (alertmanager.Alerts data) = [])) as [Hnone|Hsome].
  { rewrite !(alertHandler_no_firing _ _ _ _ _ _ _ Hdec Hrt Hnone). frame_done. }
  destruct (NewReceiver env conf (tmpl env)) as [r|err] eqn:Hnew.
  2:{ rewrite !(alertHandler_construction_fails _ _ _ _ _ _ _ _ Hdec Hrt Hsome Hnew).
      frame_done. }
  destruct (Notify env r (firingBatch data)) as [retry [err|]] eqn:Hnot.
  - rewrite !(alertHandler_delivery_fails _ _ _ _ _ _ _ _ _ _ Hdec Hrt Hsome Hnew Hnot).
    destruct retry; frame_done.
  - rewrite !(alertHandler_delivered _ _ _ _ _ _ _ _ _ Hdec Hrt Hsome Hnew Hnot).
    frame_done.
Qed.

(** X1.  A request reads nothing of the state it starts in and changes it
    in three ways only: it appends its records to the log, its calls to
    the notifier's, and raises one counter by one.  The response, the
    records, the calls and the counter are the same after any history. *)
Theorem request_reads_no_state env body logs m calls :
  let σ' := exec (alertHandler env body) (start logs m calls) in
  http.statusCode (w σ') = responseStatus env body ∧
  http.written (w σ') = http.written (w (exec (alertHandler env body) (start [] ∅ []))) ∧
  logger σ' = (logs ++ addedLogs env body)%list ∧
  notifier σ' = (calls ++ addedCalls env body)%list ∧
  ∀ k, value k (requestTotal σ') =
       (value k m + if decide (k = counterKey env body) then 1 else 0)%nat.
Proof.
  intros σ'. subst σ'. rewrite alertHandler_frame. simpl. repeat split.
  intros k. rewrite value_bumped. unfold counterKey, responseStatus.
  case_decide; lia.
Qed.

(** X2.  The dispatcher never retries and never delivers without a
    notifier: the calls a request makes are none, or [NewReceiver] alone
    when it failed, or [NewReceiver] followed by one [Notify], whatever
    retry flag [Notify] returns. *)
Theorem dispatch_at_most_once env body :
  addedCalls env body = []
  ∨ (∃ conf err, addedCalls env body = [notify.CallNewReceiver conf] ∧
                 NewReceiver env conf (tmpl env) = inr err)
  ∨ (∃ conf batch r, addedCalls env body =
                       [notify.CallNewReceiver conf; notify.CallNotify conf batch] ∧
                     NewReceiver env conf (tmpl env) = inl r).
Proof.
  unfold addedCalls.
  destruct (alertHandler_Run env body [] ∅ []); simpl; eauto 10.
Qed.

(** ** What the notifier is given *)

Lemma firingBatch_Receiver data :
  alertmanager.Receiver (firingBatch data) = alertmanager.Receiver data.
Proof. unfold firingBatch. by destruct (_ <? _)%nat. Qed.

Lemma Firing_isFiring (l : list alertmanager.Alert) :
  Forall isFiring (alertmanager.Firing l).
Proof. apply Firing_firing. Qed.

(** X3.  Every batch handed to [Notify] is the decoded batch with its
    firing alerts only: it has at least one alert, all its alerts are
    firing and in the order they came in, and its receiver, which is the
    one the configuration matched, and its group labels are the decoded
    ones. *)
Theorem notify_gets_firing_alerts env body conf batch :
  notify.CallNotify conf batch ∈ addedCalls env body →
  Forall isFiring (alertmanager.Alerts batch) ∧
  alertmanager.Alerts batch ≠ [] ∧
  ∃ data,
    Decode env body alertmanager.zero = (data, None) ∧
    ReceiverByName env (alertmanager.Receiver data) = Some conf ∧
    alertmanager.Alerts batch = alertmanager.Firing (alertmanager.Alerts data) ∧
    alertmanager.Receiver batch = alertmanager.Receiver data ∧
    alertmanager.GroupLabels batch = alertmanager.GroupLabels data.
Proof.
  unfold addedCalls.
  destruct (alertHandler_Run env body [] ∅ []) as
    [data err Hdec | data Hdec Hrt | data conf' Hdec Hrt Hnone
    | data conf' err Hdec Hrt Hsome Hnew
    | data conf' r retry err Hdec Hrt Hsome Hnew Hnot
    | data conf' r retry Hdec Hrt Hsome Hnew Hnot ];
    simpl; intros Hin;
    repeat (apply elem_of_cons in Hin as [Hin|Hin]; [try discriminate Hin|]);
    try (by apply elem_of_nil in Hin);
    injection Hin as -> ->;
    rewrite firingBatch_Alerts, firingBatch_Receiver, firingBatch_GroupLabels;
    (split; [apply Firing_isFiring|]); (split; [done|]); by exists data.
Qed.

(** ** What a request logs *)

Lemma ofLevel_app l (xs ys : list log.Record_) :
  ofLevel l (xs ++ ys) = (ofLevel l xs ++ ofLevel l ys)%list.
Proof. apply List.filter_app. Qed.

Lemma Firing_shorter (l : list alertmanager.Alert) :
  ¬ Forall isFiring l → (length (alertmanager.Firing l) < length l)%nat.
Proof.
  induction l as [|a l IH]; simpl; intros Hnot.
  - destruct Hnot. constructor.
  - destruct (String.eqb_spec (alertmanager.Status a) alertmanager.AlertFiring) as [Ha|Ha].
    + simpl. apply ->Nat.succ_lt_mono. apply IH. intros Hall. apply Hnot. by constructor.
    + pose proof (Firing_length l). lia.
Qed.

Lemma filterLogs_spec conf data :
  filterLogs conf data =
  if bool_decide (Forall isFiring (alertmanager.Alerts data)) then [] else [recResolved conf].
Proof.
  unfold filterLogs. case_bool_decide as Hall.
  - rewrite (Firing_all _ Hall). by rewrite Nat.ltb_irrefl.
  - apply Firing_shorter in Hall. by apply Nat.ltb_lt in Hall as ->.
Qed.

(** X4.  A request with a matched receiver logs the "send_resolved"
    warning exactly when some alert of the decoded batch is not firing,
    and then once, naming the receiver; it logs no other warning. *)
Theorem resolved_alerts_warned_once env body data conf :
  Decode env body alertmanager.zero = (data, None) →
  ReceiverByName env (alertmanager.Receiver data) = Some conf →
  ofLevel level.Warn (addedLogs env body) =
  if bool_decide (Forall isFiring (alertmanager.Alerts data))
  then [] else [recResolved conf].
Proof.
  intros Hdec Hrt. unfold addedLogs. rewrite <- filterLogs_spec.
  destruct (alertHandler_Run env body [] ∅ []) as
    [data' err Hdec' | data' Hdec' Hrt' | data' conf' Hdec' Hrt' Hnone
    | data' conf' err Hdec' Hrt' Hsome Hnew
    | data' conf' r retry err Hdec' Hrt' Hsome Hnew Hnot
    | data' conf' r retry Hdec' Hrt' Hsome Hnew Hnot ];
    rewrite Hdec in Hdec'; try discriminate Hdec'; injection Hdec' as <-;
    rewrite Hrt in Hrt'; try discriminate Hrt'; injection Hrt' as <-;
    simpl; unfold routedLogs;
    rewrite ?ofLevel_app; simpl; rewrite ?app_nil_r;
    unfold filterLogs; by destruct (_ <? _)%nat.
Qed.

(** X5.  A request logs an error record exactly when it fails: a response
    with status 200 comes with no error record, any other response with
    one, the diagnostic record of that status, logged last.  With
    [-log.level error] those are the only records written out. *)
Theorem failure_logged_as_one_error env body :
  (∀ fmt_, emitted (setupLogger "error" fmt_) (addedLogs env body) =
           ofLevel level.Error (addedLogs env body)) ∧
  ((responseStatus env body = 200 ∧ ofLevel level.Error (addedLogs env body) = [])
   ∨ (responseStatus env body ≠ 200 ∧
      ∃ err receiver labels,
        ofLevel level.Error (addedLogs env body) =
          [recError env (responseStatus env body) err receiver labels] ∧
        last (addedLogs env body) =
          Some (recError env (responseStatus env body) err receiver labels))).
Proof.
  split.
  - intros fmt_. unfold emitted, ofLevel. apply List.filter_ext.
    intros r. simpl. by destruct (log.lvl r).
  - unfold addedLogs, responseStatus.
    destruct (alertHandler_Run env body [] ∅ []) as
      [data err Hdec | data Hdec Hrt | data conf Hdec Hrt Hnone
      | data conf err Hdec Hrt Hsome Hnew
      | data conf r retry err Hdec Hrt Hsome Hnew Hnot
      | data conf r retry Hdec Hrt Hsome Hnew Hnot ];
      simpl; unfold routedLogs, filterLogs; try destruct (_ <? _)%nat; simpl;
      try (by left);
      (right; split; [by try destruct retry|]; by eexists _, _, _).
Qed.

(** ** What the status tells *)

(** X6.  The status of a response names the stage that failed: it is 400
    exactly when decoding fails, 404 exactly when the decoded receiver is
    not configured, and 503 exactly when [Notify] fails with the retry
    flag set; a failure to build the notifier never gives 503. *)
Theorem status_names_the_failure env body :
  (responseStatus env body = 400 ↔
     ∃ data err, Decode env body alertmanager.zero = (data, Some err)) ∧
  (responseStatus env body = 404 ↔
     ∃ data, Decode env body alertmanager.zero = (data, None) ∧
             ReceiverByName env (alertmanager.Receiver data) = None) ∧
  (responseStatus env body = 503 ↔
     ∃ data conf r err,
       Decode env body alertmanager.zero = (data, None) ∧
       ReceiverByName env (alertmanager.Receiver data) = Some conf ∧
       alertmanager.Firing (alertmanager.Alerts data) ≠ [] ∧
       NewReceiver env conf (tmpl env) = inl r ∧
       Notify env r (firingBatch data) = (true, Some err)).
Proof.
  unfold responseStatus. repeat split.
  - destruct (alertHandler_Run env body [] ∅ []); simpl; try discriminate;
      try (by destruct retry); eauto.
  - intros (data & err & Hdec). by rewrite (alertHandler_decode_error _ _ _ _ _ _ _ Hdec).
  - destruct (alertHandler_Run env body [] ∅ []); simpl; try discriminate;
      try (by destruct retry); eauto.
  - intros (data & Hdec & Hrt).
    by rewrite (alertHandler_receiver_missing _ _ _ _ _ _ Hdec Hrt).
  - destruct (alertHandler_Run env body [] ∅ []); simpl; try discriminate;
      try (destruct retry; [|discriminate]); eauto 10.
  - intros (data & conf & r & err & Hdec & Hrt & Hsome & Hnew & Hnot).
    by rewrite (alertHandler_delivery_fails _ _ _ _ _ _ _ _ _ _ Hdec Hrt Hsome Hnew Hnot).
Qed.

(** ** Requests one after another *)

Lemma serve_cons env body reqs σ :
  serve ((env, body) :: reqs) σ = serve reqs (exec (alertHandler env body) (next σ)).
Proof. reflexivity. Qed.

(** X7.  After any sequence of requests, each counter stands at its
    earlier value plus the number of requests of the sequence that were
    counted under it; in particular no counter ever goes down. *)
Theorem counters_count_requests reqs σ k :
  value k (requestTotal (serve reqs σ)) =
    (value k (requestTotal σ)
     + length (filter (λ r, counterKey r.1 r.2 = k) reqs))%nat
  ∧ (value k (requestTotal σ) ≤ value k (requestTotal (serve reqs σ)))%nat.
Proof.
  assert (Hcount : ∀ reqs σ,
    value k (requestTotal (serve reqs σ)) =
      (value k (requestTotal σ)
       + length (filter (λ r, counterKey r.1 r.2 = k) reqs))%nat).
  { clear. induction reqs as [|[env body] reqs IH]; intros σ; simpl.
    - lia.
    - rewrite IH. unfold next. rewrite alertHandler_frame. simpl.
      rewrite value_bumped, filter_cons. simpl.
      repeat case_decide; simpl; try lia;
        unfold counterKey, responseStatus in *; congruence. }
  split; [apply Hcount|]. rewrite Hcount. lia.
Qed.

(** ** The level filter *)

(** X8.  Whatever the [-log.level] and [-log.format] flags say, the logger
    of [setupLogger] writes out every error record it is handed: the
    diagnostic records of failed requests cannot be switched off. *)
Theorem errors_always_emitted lvl fmt_ (records : list log.Record_) :
  ofLevel level.Error (emitted (setupLogger lvl fmt_) records) =
  ofLevel level.Error records.
Proof.
  unfold ofLevel, emitted. generalize (setupLogger lvl fmt_) as lg. intros lg.
  induction records as [|r records IH]; [done|]. simpl.
  assert (Herr : log.lvl r = level.Error →
                 level.allows (allowed lg) (log.lvl r) = true).
  { intros ->. by destruct (allowed _). }
  destruct (level.allows _ (log.lvl r)) eqn:Ha; simpl.
  - destruct (bool_decide _); by rewrite IH.
  - case_bool_decide as Hl; [|apply IH]. specialize (Herr Hl). congruence.
Qed.

(** X9.  The level names are matched exactly and anything but "error",
    "warn" and "debug" means "info": warnings are written out unless the
    level is "error", informational records unless it is "error" or
    "warn", and debug records only when it is "debug". *)
Theorem level_flag_meaning lvl fmt_ (l : level.Level) :
  level.allows (allowed (setupLogger lvl fmt_)) l =
  match l with
  | level.Error => true
  | level.Warn => negb (String.eqb lvl "error")
  | level.Info => negb (String.eqb lvl "error" || String.eqb lvl "warn")
  | level.Debug => String.eqb lvl "debug"
  end.
Proof.
  unfold setupLogger. simpl.
  destruct (String.eqb_spec lvl "error") as [->|He]; [by destruct l|].
  destruct (String.eqb_spec lvl "warn") as [->|Hw]; [by destruct l|].
  destruct (String.eqb_spec lvl "debug") as [->|Hd]; by destruct l.
Qed.

(** ** The pages *)

Lemma append_nil_r (s : string) : s +:+ EmptyString = s.
Proof.
  induction s as [|c s IH]; [done|].
  change (String c (s +:+ EmptyString) = String c s). by f_equal.
Qed.

Lemma append_assoc (s1 s2 s3 : string) : (s1 +:+ s2) +:+ s3 = s1 +:+ (s2 +:+ s3).
Proof.
  induction s1 as [|c s1 IH]; [done|].
  change (String c ((s1 +:+ s2) +:+ s3) = String c (s1 +:+ (s2 +:+ s3))). by f_equal.
Qed.

Lemma Write_chunks (chunks : list string) (w0 : http.ResponseWriter) :
  foldl (λ w p, http.Write p w) w0 chunks =
  {| http.wroteHeader :=
       match chunks, http.wroteHeader w0 with
       | [], h => h
       | _ :: _, Some c => Some c
       | _ :: _, None => Some http.StatusOK
       end;
     http.written := http.written w0 +:+ output chunks |}.
Proof.
  revert w0. induction chunks as [|p chunks IH]; intros [h b]; simpl.
  - by rewrite append_nil_r.
  - rewrite IH. unfold http.Write, http.WriteHeader. simpl.
    destruct h, chunks; simpl; by rewrite ?append_assoc.
Qed.

Lemma page_run execute t data logs m calls :
  exec (err ← Execute execute t data;
        match err with Some _ => WriteHeader 500 | None => mret tt end)
       (start logs m calls) =
  page (execute t data).1 (execute t data).2 logs m calls.
Proof.
  rewrite exec_bind. unfold Execute, page. simpl. rewrite Write_chunks. simpl.
  destruct (execute t data) as [[|p chunks] [err|]]; reflexivity.
Qed.

(** X10.  The home page and the configuration page send what the template
    wrote, and nothing else: neither writes an error page.  The status is
    500 only when the template fails before its first write; once it has
    written, a failure leaves the status at 200 with the partial output as
    body.  Neither page logs, counts or calls the notifier. *)
Theorem pages_send_template_output execute text logs m calls :
  exec (HomeHandlerFunc execute) (start logs m calls) =
    (let out := execute homeTemplate
                  {| DocsUrl := docsUrl; Config := EmptyString; Err := None |} in
     page out.1 out.2 logs m calls)
  ∧ exec (ConfigHandlerFunc execute text) (start logs m calls) =
    (let out := execute configTemplate
                  {| DocsUrl := docsUrl; Config := text; Err := None |} in
     page out.1 out.2 logs m calls)
  ∧ ∀ chunks err,
      (http.statusCode (w (page chunks err logs m calls)) = 500
       ↔ chunks = [] ∧ is_Some err)
      ∧ http.written (w (page chunks err logs m calls)) = output chunks.
Proof.
  split; [apply page_run|]. split; [apply page_run|].
  intros chunks err. split; [|done].
  destruct chunks, err; simpl;
    (split;
     [ intros H; first [discriminate H | split; [done|by eexists]]
     | intros [H1 [x Hx]]; first [discriminate H1 | discriminate Hx | done] ]).
Qed.

(** ** Startup *)

Ltac in_trace H :=
  repeat (apply elem_of_cons in H as [H|H]; [try discriminate H|]);
  try (by apply elem_of_nil in H).

Ltac trace_has :=
  repeat first [apply list_elem_of_here | apply list_elem_of_further].

(** Goes through the paths of [main]. *)
Ltac main_paths h :=
  unfold main, loaded, address;
  destruct (String.eqb (Getenv h "DEBUG") EmptyString);
  (destruct (LoadFile h (configFile (flags h))) as [config|err] eqn:Hload;
   [ destruct (LoadTemplate h (config.Template config)) as [err|] eqn:Htmpl;
     [ | destruct (String.eqb (Getenv h "PORT") EmptyString);
         destruct (ListenAndServe h _) as [err|] eqn:Hlisten ]
   | ]);
  simpl.

(** X11.  [main] fails fast: it registers handlers and listens only when
    the configuration and the templates have both loaded, and it does not
    try the templates when the configuration failed.  When one of them
    fails to load, the last thing it does is exit with status 1, after
    one error record. *)
Theorem main_serves_only_when_loaded h :
  ((∃ addr, CallListenAndServe addr ∈ main h) ↔ loaded h) ∧
  (∀ pattern, Handle pattern ∈ main h → loaded h) ∧
  (∀ path, CallLoadTemplate path ∈ main h →
     ∃ config, LoadFile h (configFile (flags h)) = inl config ∧
               path = config.Template config) ∧
  (¬ loaded h →
     last (main h) = Some (Exit 1) ∧
     ∃ r, ofLevel level.Error (logged (main h)) = [r]).
Proof.
  repeat split.
  - intros [addr Hin]. revert Hin. main_paths h; intros Hin; in_trace Hin;
      exists config; by rewrite Htmpl.
  - intros (cfg & Hload' & Htmpl'). revert Hload' Htmpl'.
    main_paths h; intros Hload' Htmpl';
      try (rewrite Hload' in Hload; simplify_eq);
      try (rewrite Htmpl' in Htmpl; simplify_eq);
      eexists; trace_has.
  - intros pattern. main_paths h; intros Hin; in_trace Hin;
      exists config; by rewrite Htmpl.
  - intros path. main_paths h; intros Hin; in_trace Hin;
      injection Hin as ->; by exists config.
  - revert H. main_paths h; intros Hnot; try done;
      destruct Hnot; exists config; by rewrite Htmpl.
  - revert H. main_paths h; intros Hnot; try (by eexists);
      destruct Hnot; exists config; by rewrite Htmpl.
Qed.


(** ** The further properties on concrete requests *)

(** X3 on a batch with a firing and a resolved alert: [Notify] gets the
    firing one. *)
Lemma notify_gets_firing_alerts_witness :
  Forall isFiring (alertmanager.Alerts (fixture.batch "team-a" ["firing"])) ∧
  alertmanager.Alerts (fixture.batch "team-a" ["firing"]) ≠ [].
Proof.
  pose proof (notify_gets_firing_alerts
                (fixture.env fixture.table [fixture.teamA] fixture.Delivered)
                "firing-and-resolved" fixture.teamA (fixture.batch "team-a" ["firing"])
                ltac:(apply list_elem_of_further, list_elem_of_here))
    as (Hall & Hsome & _).
  split; assumption.
Defined.

(** X4 on the same batch: one warning for "team-a". *)
Lemma resolved_alerts_warned_once_witness :
  ofLevel level.Warn
    (addedLogs (fixture.env fixture.table [fixture.teamA] fixture.Delivered)
               "firing-and-resolved") =
  [recResolved fixture.teamA].
Proof.
  apply (resolved_alerts_warned_once
           (fixture.env fixture.table [fixture.teamA] fixture.Delivered)
           "firing-and-resolved" (fixture.batch "team-a" ["firing"; "resolved"])
           fixture.teamA eq_refl eq_refl).
Defined.

(** [main] on the test hosts. *)
Example main_port_taken :
  main sample.host =
  [record level.Info [("msg", log.Str "starting JIRAlert"); ("version", log.Str Version)];
   CallLoadFile "config/jiralert.yml";
   CallLoadTemplate "config/jiralert.tmpl";
   Handle "/alert"; Handle "/"; Handle "/config"; Handle "/healthz"; Handle "/metrics";
   record level.Info [("msg", log.Str "listening"); ("address", log.Str ":8080")];
   CallListenAndServe ":8080";
   record level.Error [("msg", log.Str "failed to start HTTP server");
                       ("address", log.Str ":8080")];
   Exit 1].
Proof. reflexivity. Qed.

Example main_bad_config :
  main sample.badConfig =
  [record level.Info [("msg", log.Str "starting JIRAlert"); ("version", log.Str Version)];
   CallLoadFile "config/jiralert.yml";
   record level.Error
     [("msg", log.Str "error loading configuration");
      ("path", log.Str "config/jiralert.yml");
      ("err", log.Err (errors.New "yaml: line 3: mapping values are not allowed"))];
   Exit 1].
Proof. reflexivity. Qed.

(** The home page when the template fails after, and before, its first
    write. *)
Example home_fails_late :
  w (exec (HomeHandlerFunc sample.failsLate) fixture.world0) =
  {| http.wroteHeader := Some 200; http.written := "<html>" |}.
Proof. reflexivity. Qed.

Example home_fails_early :
  w (exec (HomeHandlerFunc sample.failsEarly) fixture.world0) =
  {| http.wroteHeader := Some 500; http.written := EmptyString |}.
Proof. reflexivity. Qed.
